(** * Linux window-frame layout strategies (shell/browser/ui/views/linux_frame_layout.{h,cc})

    A shallow embedding of the three decoration strategies
    ([LinuxCSDNativeFrameLayout], [LinuxCSDCustomFrameLayout],
    [LinuxUndecoratedFrameLayout]), of the factory [Create] that selects among
    them, and of the free function [PaintRestoredFrameBorderLinux].

    Conventions of the embedding:
    - C++ [int] values are integers in [Z]; every value the layouts compute is
      a pixel count built from comparisons, [max], negation and small sums.
    - [float]/[double] values (shadow blur, Skia scalars) are exact rationals
      in [Q].
    - The GUI toolkit is a record [World] that is passed to every call: the
      code reads it afresh on each query.
    - A pointer obtained from the toolkit and dereferenced is an [option];
      dereferencing [None] is the error [NullDeref]. *)

From Stdlib Require Import ZArith QArith Qround Bool List Lia.
Import ListNotations.
Open Scope Z_scope.

(** ** Results of calls that dereference toolkit pointers *)

Inductive Collaborator :=
| TheWidget
| TheLinuxUiTheme
| TheLayoutProvider
| TheColorProvider.

Inductive Result (A : Type) :=
| Ok (a : A)
| NullDeref (c : Collaborator).
Arguments Ok {A} a.
Arguments NullDeref {A} c.

Definition bind {A B} (m : Result A) (k : A -> Result B) : Result B :=
  match m with
  | Ok a => k a
  | NullDeref c => NullDeref c
  end.

Definition deref {A} (c : Collaborator) (p : option A) : Result A :=
  match p with
  | Some a => Ok a
  | None => NullDeref c
  end.


Declare Scope result_scope.
Delimit Scope result_scope with result.
Notation "x <- m ;; k" := (bind m (fun x => k))
  (at level 100, m at next level, right associativity) : result_scope.
Open Scope result_scope.

(** ** Toolkit geometry value types (ui/gfx/geometry, Skia) *)

Module gfx.

(** gfx::Insets, built with [gfx::Insets::TLBR(top, left, bottom, right)]. *)
Record Insets := TLBR { top : Z; left : Z; bottom : Z; right : Z }.

(** [gfx::Insets(int all)] and the default constructor [gfx::Insets()]. *)
Definition Insets_all (all : Z) : Insets := TLBR all all all all.
Definition Insets_zero : Insets := Insets_all 0.

Definition set_top (i : Insets) (v : Z) := TLBR v (left i) (bottom i) (right i).
Definition set_left (i : Insets) (v : Z) := TLBR (top i) v (bottom i) (right i).
Definition set_bottom (i : Insets) (v : Z) := TLBR (top i) (left i) v (right i).
Definition set_right (i : Insets) (v : Z) := TLBR (top i) (left i) (bottom i) v.

Definition Insets_width (i : Insets) : Z := left i + right i.
Definition Insets_height (i : Insets) : Z := top i + bottom i.

(** [Insets::IsEmpty()]: no horizontal and no vertical extent. *)
Definition IsEmpty (i : Insets) : bool :=
  (Insets_width i =? 0) && (Insets_height i =? 0).

(** Unary minus on insets. *)
Definition Insets_neg (i : Insets) : Insets :=
  TLBR (- top i) (- left i) (- bottom i) (- right i).

(** gfx::Rect: origin and a size whose components are never negative. *)
Record Rect := MkRect { x : Z; y : Z; width : Z; height : Z }.

Definition Rect_zero : Rect := MkRect 0 0 0 0.
Definition Rect_right (r : Rect) : Z := x r + width r.
Definition Rect_bottom (r : Rect) : Z := y r + height r.
Definition Rect_IsEmpty (r : Rect) : bool := (width r =? 0) || (height r =? 0).

(** [Rect::Inset(insets)]: move the origin in, shrink the size. *)
Definition Rect_Inset (r : Rect) (i : Insets) : Rect :=
  MkRect (x r + left i) (y r + top i)
         (Z.max 0 (width r - Insets_width i))
         (Z.max 0 (height r - Insets_height i)).

Definition SetByBounds (l t r b : Z) : Rect :=
  MkRect l t (Z.max 0 (r - l)) (Z.max 0 (b - t)).

(** [Rect::Union(rect)]: bounding box, an empty operand being ignored. *)
Definition Rect_Union (a b : Rect) : Rect :=
  if Rect_IsEmpty a then b
  else if Rect_IsEmpty b then a
  else SetByBounds (Z.min (x a) (x b)) (Z.min (y a) (y b))
                   (Z.max (Rect_right a) (Rect_right b))
                   (Z.max (Rect_bottom a) (Rect_bottom b)).

(** gfx::RectF and gfx::InsetsF restricted to what the layouts use. *)
Record RectF := MkRectF { xf : Q; yf : Q; widthf : Q; heightf : Q }.

Definition RectF_zero : RectF := MkRectF 0 0 0 0.

Definition clampF (v : Q) : Q := if Qle_bool v 0 then 0%Q else v.

(** [RectF::Inset(InsetsF(all))] with the same inset on the four sides. *)
Definition RectF_Inset_all (r : RectF) (all : Q) : RectF :=
  MkRectF (xf r + all) (yf r + all)
          (clampF (widthf r - (all + all)))
          (clampF (heightf r - (all + all))).

(** [set_origin(origin() + offset)] for an integer offset. *)
Definition RectF_offset (r : RectF) (dx dy : Z) : RectF :=
  MkRectF (xf r + inject_Z dx) (yf r + inject_Z dy) (widthf r) (heightf r).

Definition is_zeroQ (v : Q) : bool := Qeq_bool v 0.

(** [gfx::ToEnclosingRect]: the smallest integer rectangle around [r]. *)
Definition ToEnclosingRect (r : RectF) : Rect :=
  let l := Qfloor (xf r) in
  let rt := if is_zeroQ (widthf r) then l else Qceiling (xf r + widthf r) in
  let t := Qfloor (yf r) in
  let b := if is_zeroQ (heightf r) then t else Qceiling (yf r + heightf r) in
  SetByBounds l t rt b.

(** gfx::ShadowValue: an integer offset and a blur amount. *)
Record ShadowValue := MkShadow { offset_x : Z; offset_y : Z; blur : Q }.
Definition ShadowValues := list ShadowValue.

End gfx.

(** SkRect, SkPoint and SkRRect restricted to what the layouts use. *)
Record SkRect := MkSkRect { fLeft : Q; fTop : Q; fRight : Q; fBottom : Q }.

Definition RectToSkRect (r : gfx.Rect) : SkRect :=
  MkSkRect (inject_Z (gfx.x r)) (inject_Z (gfx.y r))
           (inject_Z (gfx.x r + gfx.width r))
           (inject_Z (gfx.y r + gfx.height r)).

Definition SkPoint := (Q * Q)%type.
Definition SkPoint_zero : SkPoint := (0%Q, 0%Q).

(** An SkRRect is its bounds and the radii of its four corners in Skia's
    order: upper-left, upper-right, lower-right, lower-left. *)
Record SkRRect := MkSkRRect {
  rrect_rect : SkRect;
  upper_left : SkPoint;
  upper_right : SkPoint;
  lower_right : SkPoint;
  lower_left : SkPoint
}.

(** [SkRRect::setRect(rect)]: a plain rectangle, all corners square. *)
Definition setRect (rect : SkRect) : SkRRect :=
  MkSkRRect rect SkPoint_zero SkPoint_zero SkPoint_zero SkPoint_zero.

(** [SkRRect::setRectRadii(rect, radii)] with the four radii of the array. *)
Definition setRectRadii (rect : SkRect) (r0 r1 r2 r3 : SkPoint) : SkRRect :=
  MkSkRRect rect r0 r1 r2 r3.



(** ** Toolkit state read by the layouts *)

(** ElectronDesktopWindowTreeHostLinux, as far as the layouts query it. *)
Record ElectronDesktopWindowTreeHostLinux := {
  host_SupportsClientFrameShadow : bool
}.

Record Widget := { GetWindowBoundsInScreen : gfx.Rect }.

(** NativeWindowViews: [GetHostForWidget] stands for
    [ElectronDesktopWindowTreeHostLinux::GetHostForWidget(GetAcceleratedWidget())]. *)
Record NativeWindowViews := {
  IsTranslucent : bool;
  IsMaximized : bool;
  IsFullscreen : bool;
  widget : option Widget;
  GetHostForWidget : option ElectronDesktopWindowTreeHostLinux
}.

Record WindowFrameProvider := {
  GetFrameThicknessDip : gfx.Insets;
  GetTopCornerRadiusDip : Z
}.

(** [GetWindowFrameProvider(solid_frame, tiled, maximized)]. *)
Record LinuxUiTheme := {
  GetWindowFrameProvider : bool -> bool -> bool -> WindowFrameProvider
}.

Inductive Emphasis := kMaximum | kMedium.

Record LayoutProvider := { GetShadowElevationMetric : Emphasis -> Z }.

Definition SkColor := Z.

Record World := {
  IsX11 : bool;                                   (* x11_util::IsX11() *)
  IsRTL : bool;                                   (* base::i18n::IsRTL() *)
  window : NativeWindowViews;                     (* what window_ points to *)
  LinuxUiTheme_GetForProfile : option LinuxUiTheme;
  LayoutProvider_Get : option LayoutProvider;
  MakeMdShadowValues : Z -> gfx.ShadowValues;     (* gfx::ShadowValue:: *)
  PickContrastingColor : SkColor -> SkColor -> SkColor -> SkColor
}.

(** ** Constants of the anonymous namespace *)

Definition kResizeBorder : Z := 10.
Definition kResizeInsideBoundsSize : Z := 5.
Definition kDefaultCustomFrameBorder : gfx.Insets := gfx.TLBR 2 1 1 1.
Definition kBorderAlpha : Z := 0x26.

(** ** The strategy objects

    [window_] is fixed at construction and always designates the window of
    the [World]; the remaining data members are the fields below. *)

Inductive CSDStyle := kNativeFrame | kCustom.

Record LinuxCSDBaseLayout := {
  tiled_ : bool;
  host_supports_client_frame_shadow_ : bool
}.

Record LinuxUndecoratedFrameLayout := { undecorated_tiled_ : bool }.

(** A [std::unique_ptr<LinuxFrameLayout>]: the dynamic type and its fields. *)
Inductive LinuxFrameLayout :=
| CSDNative (l : LinuxCSDBaseLayout)
| CSDCustom (l : LinuxCSDBaseLayout)
| Undecorated (l : LinuxUndecoratedFrameLayout).

Module CSDBase.

Definition SupportsClientFrameShadow (w : World) (l : LinuxCSDBaseLayout) : bool :=
  match GetHostForWidget (window w) with
  | None => false
  | Some tree_host => host_SupportsClientFrameShadow tree_host
  end.

(** The constructor: default member initialisers, then the body. *)
Definition ctor (w : World) : LinuxCSDBaseLayout :=
  let this := {| tiled_ := false; host_supports_client_frame_shadow_ := false |} in
  {| tiled_ := tiled_ this;
     host_supports_client_frame_shadow_ := SupportsClientFrameShadow w this |}.

Definition IsShowingShadow (w : World) (l : LinuxCSDBaseLayout) : bool :=
  host_supports_client_frame_shadow_ l && negb (IsMaximized (window w)) &&
  negb (IsFullscreen (window w)).

Definition GetInputInsets (w : World) (l : LinuxCSDBaseLayout) : gfx.Insets :=
  let showing_shadow := IsShowingShadow w l in
  gfx.Insets_all (if showing_shadow then kResizeBorder else 0).

Definition tiled (l : LinuxCSDBaseLayout) : bool := tiled_ l.

Definition set_tiled (l : LinuxCSDBaseLayout) (tiled : bool) : LinuxCSDBaseLayout :=
  {| tiled_ := tiled;
     host_supports_client_frame_shadow_ := host_supports_client_frame_shadow_ l |}.

Definition GetTranslucentTopAreaHeight (l : LinuxCSDBaseLayout) : Z := 0.

Definition expand_if_visible (side_thickness min_band : Z) : Z :=
  if side_thickness >? 0 then Z.max side_thickness min_band else 0.

Definition NormalizeBorderInsets (w : World)
    (frame_insets input_insets : gfx.Insets) : gfx.Insets :=
  let merged := gfx.Insets_zero in
  let merged := gfx.set_top merged
      (expand_if_visible (gfx.top frame_insets) (gfx.top input_insets)) in
  let merged := gfx.set_left merged
      (expand_if_visible (gfx.left frame_insets) (gfx.left input_insets)) in
  let merged := gfx.set_bottom merged
      (expand_if_visible (gfx.bottom frame_insets) (gfx.bottom input_insets)) in
  let merged := gfx.set_right merged
      (expand_if_visible (gfx.right frame_insets) (gfx.right input_insets)) in
  if IsRTL w
  then gfx.TLBR (gfx.top merged) (gfx.right merged)
                (gfx.bottom merged) (gfx.left merged)
  else merged.

End CSDBase.

Definition GetFrameShadowValuesLinux (w : World) (active : bool)
    : Result gfx.ShadowValues :=
  provider <- deref TheLayoutProvider (LayoutProvider_Get w) ;;
  let elevation :=
    GetShadowElevationMetric provider (if active then kMaximum else kMedium) in
  Ok (MakeMdShadowValues w elevation).

Module CSDNativeFrame.

Definition GetFrameProvider (w : World) (l : LinuxCSDBaseLayout)
    : Result WindowFrameProvider :=
  theme <- deref TheLinuxUiTheme (LinuxUiTheme_GetForProfile w) ;;
  Ok (GetWindowFrameProvider theme
        (negb (host_supports_client_frame_shadow_ l))
        (CSDBase.tiled l)
        (IsMaximized (window w))).

Definition RestoredFrameBorderInsets (w : World) (l : LinuxCSDBaseLayout)
    : Result gfx.Insets :=
  let input_insets := CSDBase.GetInputInsets w l in
  provider <- GetFrameProvider w l ;;
  let frame_insets := GetFrameThicknessDip provider in
  Ok (CSDBase.NormalizeBorderInsets w frame_insets input_insets).

End CSDNativeFrame.

Module CSDCustomFrame.

(** One iteration of the loop over the shadow values. *)
Definition add_shadow_extents (frame_extents : gfx.Rect)
    (shadow_value : gfx.ShadowValue) : gfx.Rect :=
  let shadow_radius := (gfx.blur shadow_value / 4)%Q in
  let shadow_extents := gfx.RectF_Inset_all gfx.RectF_zero (- shadow_radius)%Q in
  let shadow_extents :=
    gfx.RectF_offset shadow_extents (gfx.offset_x shadow_value)
                     (gfx.offset_y shadow_value) in
  gfx.Rect_Union frame_extents (gfx.ToEnclosingRect shadow_extents).

Definition RestoredFrameBorderInsets (w : World) (l : LinuxCSDBaseLayout)
    : Result gfx.Insets :=
  let input_insets := CSDBase.GetInputInsets w l in
  let showing_shadow := CSDBase.IsShowingShadow w l in
  let frame_insets := kDefaultCustomFrameBorder in
  if showing_shadow then
    shadow_values <- (if CSDBase.tiled l then Ok []
                      else GetFrameShadowValuesLinux w true) ;;
    let frame_extents :=
      fold_left add_shadow_extents shadow_values gfx.Rect_zero in
    let input_extents := gfx.Rect_Inset gfx.Rect_zero (gfx.Insets_neg input_insets) in
    let frame_extents := gfx.Rect_Union frame_extents input_extents in
    let frame_insets :=
      gfx.TLBR (- gfx.y frame_extents) (- gfx.x frame_extents)
               (gfx.Rect_bottom frame_extents) (gfx.Rect_right frame_extents) in
    Ok (CSDBase.NormalizeBorderInsets w frame_insets input_insets)
  else
    let frame_insets := gfx.set_top frame_insets 0 in
    Ok (CSDBase.NormalizeBorderInsets w frame_insets input_insets).

End CSDCustomFrame.

Module UndecoratedFrame.

Definition ctor (w : World) : LinuxUndecoratedFrameLayout :=
  {| undecorated_tiled_ := false |}.

Definition RestoredFrameBorderInsets (w : World)
    (l : LinuxUndecoratedFrameLayout) : gfx.Insets := gfx.Insets_zero.

Definition GetInputInsets (w : World) (l : LinuxUndecoratedFrameLayout)
    : gfx.Insets := gfx.Insets_all kResizeInsideBoundsSize.

Definition IsShowingShadow (w : World) (l : LinuxUndecoratedFrameLayout)
    : bool := false.

Definition SupportsClientFrameShadow (w : World)
    (l : LinuxUndecoratedFrameLayout) : bool := false.

Definition tiled (l : LinuxUndecoratedFrameLayout) : bool := undecorated_tiled_ l.

Definition set_tiled (l : LinuxUndecoratedFrameLayout) (tiled : bool)
    : LinuxUndecoratedFrameLayout := {| undecorated_tiled_ := tiled |}.

Definition GetWindowBounds (w : World) (l : LinuxUndecoratedFrameLayout)
    : Result gfx.Rect :=
  wd <- deref TheWidget (widget (window w)) ;;
  Ok (GetWindowBoundsInScreen wd).

Definition GetRoundedWindowBounds (w : World) (l : LinuxUndecoratedFrameLayout)
    : Result SkRRect :=
  bounds <- GetWindowBounds w l ;;
  Ok (setRect (RectToSkRect bounds)).

Definition GetTranslucentTopAreaHeight (l : LinuxUndecoratedFrameLayout) : Z := 0.

End UndecoratedFrame.

(** ** The interface [LinuxFrameLayout]: virtual dispatch on the dynamic type *)

Definition Create (w : World) (wants_shadow : bool) (csd_style : CSDStyle)
    : LinuxFrameLayout :=
  if IsX11 w || IsTranslucent (window w) || negb wants_shadow then
    Undecorated (UndecoratedFrame.ctor w)
  else
    match csd_style with
    | kCustom => CSDCustom (CSDBase.ctor w)
    | kNativeFrame => CSDNative (CSDBase.ctor w)
    end.

Definition RestoredFrameBorderInsets (w : World) (l : LinuxFrameLayout)
    : Result gfx.Insets :=
  match l with
  | CSDNative b => CSDNativeFrame.RestoredFrameBorderInsets w b
  | CSDCustom b => CSDCustomFrame.RestoredFrameBorderInsets w b
  | Undecorated u => Ok (UndecoratedFrame.RestoredFrameBorderInsets w u)
  end.

Definition GetInputInsets (w : World) (l : LinuxFrameLayout) : gfx.Insets :=
  match l with
  | CSDNative b | CSDCustom b => CSDBase.GetInputInsets w b
  | Undecorated u => UndecoratedFrame.GetInputInsets w u
  end.

Definition GetResizeBorderInsets (w : World) (l : LinuxFrameLayout)
    : Result gfx.Insets :=
  insets <- RestoredFrameBorderInsets w l ;;
  Ok (if gfx.IsEmpty insets then GetInputInsets w l else insets).

Definition IsShowingShadow (w : World) (l : LinuxFrameLayout) : bool :=
  match l with
  | CSDNative b | CSDCustom b => CSDBase.IsShowingShadow w b
  | Undecorated u => UndecoratedFrame.IsShowingShadow w u
  end.

Definition SupportsClientFrameShadow (w : World) (l : LinuxFrameLayout) : bool :=
  match l with
  | CSDNative b | CSDCustom b => CSDBase.SupportsClientFrameShadow w b
  | Undecorated u => UndecoratedFrame.SupportsClientFrameShadow w u
  end.

Definition tiled (l : LinuxFrameLayout) : bool :=
  match l with
  | CSDNative b | CSDCustom b => CSDBase.tiled b
  | Undecorated u => UndecoratedFrame.tiled u
  end.

Definition set_tiled (l : LinuxFrameLayout) (tiled : bool) : LinuxFrameLayout :=
  match l with
  | CSDNative b => CSDNative (CSDBase.set_tiled b tiled)
  | CSDCustom b => CSDCustom (CSDBase.set_tiled b tiled)
  | Undecorated u => Undecorated (UndecoratedFrame.set_tiled u tiled)
  end.

(** [LinuxCSDBaseLayout::GetWindowBounds] calls the virtual
    [RestoredFrameBorderInsets] of the dynamic type. *)
Definition GetWindowBounds (w : World) (l : LinuxFrameLayout) : Result gfx.Rect :=
  match l with
  | CSDNative _ | CSDCustom _ =>
      wd <- deref TheWidget (widget (window w)) ;;
      let bounds := GetWindowBoundsInScreen wd in
      insets <- RestoredFrameBorderInsets w l ;;
      Ok (gfx.Rect_Inset bounds insets)
  | Undecorated u => UndecoratedFrame.GetWindowBounds w u
  end.

Definition GetRoundedWindowBounds (w : World) (l : LinuxFrameLayout)
    : Result SkRRect :=
  match l with
  | CSDNative b =>
      bounds <- GetWindowBounds w l ;;
      let rect := RectToSkRect bounds in
      if negb (IsMaximized (window w)) then
        provider <- CSDNativeFrame.GetFrameProvider w b ;;
        let radius := inject_Z (GetTopCornerRadiusDip provider) in
        let round_point : SkPoint := (radius, radius) in
        Ok (setRectRadii rect round_point round_point SkPoint_zero SkPoint_zero)
      else
        Ok (setRect rect)
  | CSDCustom b =>
      bounds <- GetWindowBounds w l ;;
      Ok (setRect (RectToSkRect bounds))
  | Undecorated u => UndecoratedFrame.GetRoundedWindowBounds w u
  end.

Definition GetTranslucentTopAreaHeight (l : LinuxFrameLayout) : Z :=
  match l with
  | CSDNative b | CSDCustom b => CSDBase.GetTranslucentTopAreaHeight b
  | Undecorated u => UndecoratedFrame.GetTranslucentTopAreaHeight u
  end.

(** ** Painting the restored frame border *)

Inductive ColorId := kColorFrameActive | kColorFrameInactive.

Definition ColorProvider := ColorId -> SkColor.

(** views::View, as far as the paint function reads it. *)
Record View := {
  view_width : Z;
  GetColorProvider : option ColorProvider
}.

Inductive FrameBackground := TheFrameBackground.

Inductive SkClipOp := kIntersect | kDifference.

(** A rounded rectangle together with the amount it was grown by
    [SkRRect::outset(dx, dy)]; [inset(dx, dy)] grows by the opposite. *)
Record AdjustedRRect := { base : SkRRect; grown_x : Q; grown_y : Q }.

Definition unadjusted (rr : SkRRect) : AdjustedRRect :=
  {| base := rr; grown_x := 0; grown_y := 0 |}.

Definition outset (rr : AdjustedRRect) (dx dy : Q) : AdjustedRRect :=
  {| base := base rr; grown_x := grown_x rr + dx; grown_y := grown_y rr + dy |}.

Definition inset (rr : AdjustedRRect) (dx dy : Q) : AdjustedRRect :=
  outset rr (- dx) (- dy).

Record PaintFlags := {
  flags_color : SkColor;
  flags_anti_alias : bool;
  flags_looper : option gfx.ShadowValues
}.

(** What reaches the canvas, in order. *)
Inductive CanvasOp :=
| canvas_Save
| canvas_Restore
| clipRRect (rr : AdjustedRRect) (op : SkClipOp) (anti_alias : bool)
| drawRRect (rr : AdjustedRRect) (flags : PaintFlags)
| PaintMaximized (color_provider : option ColorProvider) (x y width : Z)
| FillFrameBorders (left_edge right_edge bottom_edge : Z).

Record Canvas := { image_scale : Q; drawn : list CanvasOp }.

Definition emit (canvas : Canvas) (op : CanvasOp) : Canvas :=
  {| image_scale := image_scale canvas; drawn := drawn canvas ++ [op] |}.

Definition SK_ColorBLACK : SkColor := 0xFF000000.
Definition SK_ColorWHITE : SkColor := 0xFFFFFFFF.

Definition SkColorSetA (c : SkColor) (a : Z) : SkColor :=
  Z.lor (Z.shiftl a 24) (Z.land c 0x00FFFFFF).

Definition PaintRestoredFrameBorderLinux (w : World)
    (canvas : Canvas) (view : View) (frame_background : option FrameBackground)
    (clip : SkRRect) (showing_shadow is_active : bool) (border : gfx.Insets)
    (shadow_values : gfx.ShadowValues) (tiled : bool) : Result Canvas :=
  let color_provider := GetColorProvider view in
  let canvas :=
    match frame_background with
    | Some _ =>
        let canvas := emit canvas canvas_Save in
        let canvas := emit canvas (clipRRect (unadjusted clip) kIntersect true) in
        let shadow_inset := if showing_shadow then border else gfx.Insets_zero in
        let canvas :=
          emit canvas (PaintMaximized color_provider (gfx.left shadow_inset)
                         (gfx.top shadow_inset)
                         (view_width view - gfx.Insets_width shadow_inset)) in
        let canvas :=
          if negb showing_shadow
          then emit canvas (FillFrameBorders (gfx.left border) (gfx.right border)
                              (gfx.bottom border))
          else canvas in
        emit canvas canvas_Restore
    | None => canvas
    end in
  let one_pixel := (1 / image_scale canvas)%Q in
  let outset_rect := unadjusted clip in
  let inset_rect := unadjusted clip in
  let outset_rect :=
    if tiled then outset outset_rect 1 1
    else if showing_shadow then outset outset_rect one_pixel one_pixel
    else outset_rect in
  let inset_rect :=
    if tiled then inset_rect
    else if showing_shadow then inset_rect
    else inset inset_rect one_pixel one_pixel in
  provider <- deref TheColorProvider color_provider ;;
  let frame_color :=
    provider (if is_active then kColorFrameActive else kColorFrameInactive) in
  let border_color :=
    if showing_shadow then SK_ColorBLACK
    else PickContrastingColor w SK_ColorBLACK SK_ColorWHITE frame_color in
  let flags :=
    {| flags_color := SkColorSetA border_color kBorderAlpha;
       flags_anti_alias := true;
       flags_looper := if showing_shadow then Some shadow_values else None |} in
  let canvas := emit canvas canvas_Save in
  let canvas := emit canvas (clipRRect inset_rect kDifference true) in
  let canvas := emit canvas (drawRRect outset_rect flags) in
  Ok (emit canvas canvas_Restore).

(** ** Member calls as state transitions

    A call on a layout object takes the object's state and the toolkit state
    at the time of the call, and yields the object's state afterwards and
    the value returned.  The [const] members hand the state back as is. *)

Inductive Query :=
| QRestoredFrameBorderInsets
| QGetInputInsets
| QGetResizeBorderInsets
| QIsShowingShadow
| QSupportsClientFrameShadow
| Qtiled
| QGetWindowBounds
| QGetRoundedWindowBounds
| QGetTranslucentTopAreaHeight.

Inductive Call :=
| AQuery (q : Query)
| Aset_tiled (tiled : bool).

Inductive Value :=
| VInsets (i : gfx.Insets)
| VBool (b : bool)
| VRect (r : gfx.Rect)
| VRRect (rr : SkRRect)
| VInt (n : Z)
| VVoid.

Definition fmap {A B} (f : A -> B) (m : Result A) : Result B :=
  x <- m ;; Ok (f x).

Definition answer (w : World) (l : LinuxFrameLayout) (q : Query) : Result Value :=
  match q with
  | QRestoredFrameBorderInsets => fmap VInsets (RestoredFrameBorderInsets w l)
  | QGetInputInsets => Ok (VInsets (GetInputInsets w l))
  | QGetResizeBorderInsets => fmap VInsets (GetResizeBorderInsets w l)
  | QIsShowingShadow => Ok (VBool (IsShowingShadow w l))
  | QSupportsClientFrameShadow => Ok (VBool (SupportsClientFrameShadow w l))
  | Qtiled => Ok (VBool (tiled l))
  | QGetWindowBounds => fmap VRect (GetWindowBounds w l)
  | QGetRoundedWindowBounds => fmap VRRect (GetRoundedWindowBounds w l)
  | QGetTranslucentTopAreaHeight => Ok (VInt (GetTranslucentTopAreaHeight l))
  end.

Definition invoke (w : World) (l : LinuxFrameLayout) (c : Call)
    : LinuxFrameLayout * Result Value :=
  match c with
  | AQuery q => (l, answer w l q)
  | Aset_tiled b => (set_tiled l b, Ok VVoid)
  end.

(** A session: calls made one after the other, each in the toolkit state of
    its time. *)
Fixpoint run (session : list (World * Call)) (l : LinuxFrameLayout)
    : LinuxFrameLayout :=
  match session with
  | [] => l
  | (w, c) :: rest => run rest (fst (invoke w l c))
  end.

(** The last value given to [set_tiled] in a session, if any. *)
Fixpoint last_set_tiled (session : list (World * Call)) : option bool :=
  match session with
  | [] => None
  | (_, c) :: rest =>
      match last_set_tiled rest, c with
      | Some later, _ => Some later
      | None, Aset_tiled b => Some b
      | None, AQuery _ => None
      end
  end.

(** ** Views of a layout object used in the statements *)

Inductive Strategy := NativeFrame | CustomFrame | UndecoratedStrategy.

Definition strategy (l : LinuxFrameLayout) : Strategy :=
  match l with
  | CSDNative _ => NativeFrame
  | CSDCustom _ => CustomFrame
  | Undecorated _ => UndecoratedStrategy
  end.

(** The value cached by the constructor, for the strategies that have it. *)
Definition cached_host_support (l : LinuxFrameLayout) : option bool :=
  match l with
  | CSDNative b | CSDCustom b => Some (host_supports_client_frame_shadow_ b)
  | Undecorated _ => None
  end.

(** Everything in a layout object but its [tiled] flag. *)
Definition immutable_part (l : LinuxFrameLayout) : Strategy * option bool :=
  (strategy l, cached_host_support l).

Definition all_sides_zero (i : gfx.Insets) : bool :=
  (gfx.top i =? 0) && (gfx.left i =? 0) && (gfx.bottom i =? 0) && (gfx.right i =? 0).

Definition no_negative_side (i : gfx.Insets) : Prop :=
  0 <= gfx.top i /\ 0 <= gfx.left i /\ 0 <= gfx.bottom i /\ 0 <= gfx.right i.

(** The same toolkit state with another answer of [GetHostForWidget]. *)
Definition with_tree_host (w : World)
    (host : option ElectronDesktopWindowTreeHostLinux) : World :=
  {| IsX11 := IsX11 w;
     IsRTL := IsRTL w;
     window := {| IsTranslucent := IsTranslucent (window w);
                  IsMaximized := IsMaximized (window w);
                  IsFullscreen := IsFullscreen (window w);
                  widget := widget (window w);
                  GetHostForWidget := host |};
     LinuxUiTheme_GetForProfile := LinuxUiTheme_GetForProfile w;
     LayoutProvider_Get := LayoutProvider_Get w;
     MakeMdShadowValues := MakeMdShadowValues w;
     PickContrastingColor := PickContrastingColor w |}.



(** The condition under which the specification has no decorations. *)
Definition undecorated_case (w : World) (wants_shadow : bool) : Prop :=
  IsX11 w = true \/ IsTranslucent (window w) = true \/ wants_shadow = false.

(** The window states in which a CSD layout may show its shadow. *)
Definition restored (w : World) : bool :=
  negb (IsMaximized (window w)) && negb (IsFullscreen (window w)).

(** ** Concrete toolkit states *)

Module Samples.

Definition gtk_frame_provider (solid_frame tiled maximized : bool)
    : WindowFrameProvider :=
  {| GetFrameThicknessDip :=
       if maximized then gfx.Insets_zero
       else if solid_frame then gfx.TLBR 1 1 1 1
       else gfx.TLBR 12 14 18 16;
     GetTopCornerRadiusDip := if tiled then 0 else 8 |}.

Definition md_shadow_values (elevation : Z) : gfx.ShadowValues :=
  [ gfx.MkShadow 0 elevation (inject_Z (4 * elevation));
    gfx.MkShadow 0 0 (inject_Z (2 * elevation)) ].

Definition pick_contrasting (dark light background : SkColor) : SkColor :=
  if Z.land background 0x00FFFFFF <? 0x00808080 then light else dark.

Definition restored_window : NativeWindowViews :=
  {| IsTranslucent := false;
     IsMaximized := false;
     IsFullscreen := false;
     widget := Some {| GetWindowBoundsInScreen := gfx.MkRect 100 50 800 600 |};
     GetHostForWidget := Some {| host_SupportsClientFrameShadow := true |} |}.

(** A Wayland session with a theme, a restored window and a tree host that
    supports client-frame shadows. *)
Definition wayland : World :=
  {| IsX11 := false;
     IsRTL := false;
     window := restored_window;
     LinuxUiTheme_GetForProfile :=
       Some {| GetWindowFrameProvider := gtk_frame_provider |};
     LayoutProvider_Get :=
       Some {| GetShadowElevationMetric :=
                 fun e => match e with kMaximum => 16 | kMedium => 8 end |};
     MakeMdShadowValues := md_shadow_values;
     PickContrastingColor := pick_contrasting |}.

(** The same session before the window has a tree host. *)
Definition wayland_before_host : World := with_tree_host wayland None.

(** The same session under a right-to-left locale. *)
Definition wayland_rtl : World :=
  {| IsX11 := IsX11 wayland;
     IsRTL := true;
     window := window wayland;
     LinuxUiTheme_GetForProfile := LinuxUiTheme_GetForProfile wayland;
     LayoutProvider_Get := LayoutProvider_Get wayland;
     MakeMdShadowValues := MakeMdShadowValues wayland;
     PickContrastingColor := PickContrastingColor wayland |}.


Definition attached_view : View :=
  {| view_width := 800;
     GetColorProvider :=
       Some (fun id => match id with
                       | kColorFrameActive => 0xFF202020
                       | kColorFrameInactive => 0xFFE0E0E0
                       end) |}.


Definition blank_canvas : Canvas := {| image_scale := 2; drawn := [] |}.

Definition clip_rect : SkRRect :=
  setRect (RectToSkRect (gfx.MkRect 10 10 780 580)).

End Samples.

(** ** Further views used in the statements *)

(** What the tree host of the window answers at present, false without one. *)
Definition tree_host_supports_shadow (w : World) : bool :=
  match GetHostForWidget (window w) with
  | Some tree_host => host_SupportsClientFrameShadow tree_host
  | None => false
  end.

(** The integer rectangle that one shadow covers on its own: the result of
    the loop body on the empty extents. *)
Definition shadow_bounds (shadow_value : gfx.ShadowValue) : gfx.Rect :=
  CSDCustomFrame.add_shadow_extents gfx.Rect_zero shadow_value.

(** A rectangle of the toolkit has no negative size. *)
Definition valid_rect (r : gfx.Rect) : Prop :=
  0 <= gfx.width r /\ 0 <= gfx.height r.

(** [outer] reaches at least as far as [inner] in the four directions. *)
Definition covers (outer inner : gfx.Rect) : Prop :=
  gfx.x outer <= gfx.x inner /\
  gfx.y outer <= gfx.y inner /\
  gfx.Rect_right inner <= gfx.Rect_right outer /\
  gfx.Rect_bottom inner <= gfx.Rect_bottom outer.

(** Left and right exchanged. *)
Definition mirrored (i : gfx.Insets) : gfx.Insets :=
  gfx.TLBR (gfx.top i) (gfx.right i) (gfx.bottom i) (gfx.left i).

(** The same toolkit state under another text direction. *)
Definition with_text_direction (w : World) (rtl : bool) : World :=
  {| IsX11 := IsX11 w;
     IsRTL := rtl;
     window := window w;
     LinuxUiTheme_GetForProfile := LinuxUiTheme_GetForProfile w;
     LayoutProvider_Get := LayoutProvider_Get w;
     MakeMdShadowValues := MakeMdShadowValues w;
     PickContrastingColor := PickContrastingColor w |}.

(** Nesting of the canvas state stack along a list of operations: the depth
    after the list, or [None] when a restore has no save to undo. *)
Fixpoint save_depth (ops : list CanvasOp) (depth : nat) : option nat :=
  match ops with
  | [] => Some depth
  | canvas_Save :: rest => save_depth rest (S depth)
  | canvas_Restore :: rest =>
      match depth with
      | O => None
      | S below => save_depth rest below
      end
  | _ :: rest => save_depth rest depth
  end.

Definition is_drawRRect (op : CanvasOp) : bool :=
  match op with drawRRect _ _ => true | _ => false end.

Definition is_FillFrameBorders (op : CanvasOp) : bool :=
  match op with FillFrameBorders _ _ _ => true | _ => false end.

Definition is_PaintMaximized (op : CanvasOp) : bool :=
  match op with PaintMaximized _ _ _ _ => true | _ => false end.

(** The same toolkit state with the window maximized. *)
Definition maximized (w : World) : World :=
  {| IsX11 := IsX11 w;
     IsRTL := IsRTL w;
     window := {| IsTranslucent := IsTranslucent (window w);
                  IsMaximized := true;
                  IsFullscreen := IsFullscreen (window w);
                  widget := widget (window w);
                  GetHostForWidget := GetHostForWidget (window w) |};
     LinuxUiTheme_GetForProfile := LinuxUiTheme_GetForProfile w;
     LayoutProvider_Get := LayoutProvider_Get w;
     MakeMdShadowValues := MakeMdShadowValues w;
     PickContrastingColor := PickContrastingColor w |}.

(** * Properties *)

(** ** Shared facts *)

Ltac dispatch l :=
  destruct l as [[? ?] | [? ?] | [?]]; cbn.

Lemma bind_Ok_inv {A B} (m : Result A) (k : A -> Result B) (b : B) :
  bind m k = Ok b -> exists a, m = Ok a /\ k a = Ok b.
Proof.
  destruct m as [a | c]; cbn; intros H; [ eauto | discriminate ].
Qed.

Lemma expand_if_visible_range (side_thickness min_band : Z) :
  CSDBase.expand_if_visible side_thickness min_band = 0 \/
  0 < CSDBase.expand_if_visible side_thickness min_band.
Proof.
  unfold CSDBase.expand_if_visible.
  destruct (Z.gtb_spec side_thickness 0); [ right; lia | now left ].
Qed.

Lemma expand_if_visible_at_least (side_thickness min_band : Z) :
  CSDBase.expand_if_visible side_thickness min_band <> 0 ->
  side_thickness <= CSDBase.expand_if_visible side_thickness min_band /\
  min_band <= CSDBase.expand_if_visible side_thickness min_band.
Proof.
  unfold CSDBase.expand_if_visible.
  destruct (Z.gtb_spec side_thickness 0); [ lia | congruence ].
Qed.

Lemma NormalizeBorderInsets_no_negative_side w frame_insets input_insets :
  no_negative_side (CSDBase.NormalizeBorderInsets w frame_insets input_insets).
Proof.
  unfold CSDBase.NormalizeBorderInsets, no_negative_side.
  pose proof (expand_if_visible_range (gfx.top frame_insets) (gfx.top input_insets)).
  pose proof (expand_if_visible_range (gfx.left frame_insets) (gfx.left input_insets)).
  pose proof (expand_if_visible_range (gfx.bottom frame_insets) (gfx.bottom input_insets)).
  pose proof (expand_if_visible_range (gfx.right frame_insets) (gfx.right input_insets)).
  destruct (IsRTL w); cbn; lia.
Qed.

Lemma RestoredFrameBorderInsets_no_negative_side w l insets :
  RestoredFrameBorderInsets w l = Ok insets -> no_negative_side insets.
Proof.
  destruct l as [b | b | u]; cbn.
  - unfold CSDNativeFrame.RestoredFrameBorderInsets.
    intros H. apply bind_Ok_inv in H as (p & _ & H).
    injection H as <-. apply NormalizeBorderInsets_no_negative_side.
  - unfold CSDCustomFrame.RestoredFrameBorderInsets.
    destruct (CSDBase.IsShowingShadow w b).
    + intros H. apply bind_Ok_inv in H as (sv & _ & H).
      injection H as <-. apply NormalizeBorderInsets_no_negative_side.
    + intros H. injection H as <-. apply NormalizeBorderInsets_no_negative_side.
  - intros H. injection H as <-. unfold no_negative_side; cbn; lia.
Qed.

Lemma IsEmpty_all_sides_zero (i : gfx.Insets) :
  no_negative_side i -> gfx.IsEmpty i = all_sides_zero i.
Proof.
  unfold no_negative_side, gfx.IsEmpty, all_sides_zero,
    gfx.Insets_width, gfx.Insets_height.
  intros (Ht & Hl & Hb & Hr).
  destruct (Z.eqb_spec (gfx.top i) 0), (Z.eqb_spec (gfx.left i) 0),
    (Z.eqb_spec (gfx.bottom i) 0), (Z.eqb_spec (gfx.right i) 0),
    (Z.eqb_spec (gfx.left i + gfx.right i) 0),
    (Z.eqb_spec (gfx.top i + gfx.bottom i) 0); cbn; try reflexivity; lia.
Qed.

Lemma layout_determined (l1 l2 : LinuxFrameLayout) :
  immutable_part l1 = immutable_part l2 -> tiled l1 = tiled l2 -> l1 = l2.
Proof.
  unfold immutable_part.
  dispatch l1; dispatch l2; intros H1 H2; congruence.
Qed.

(** ** Selecting the strategy *)

(** C1. [Create] returns the undecorated layout exactly when the display
    server is X11, or the window is translucent, or [wants_shadow] is false;
    otherwise the custom-frame layout when [csd_style] is [kCustom], and the
    native-frame layout in every remaining case. *)
Theorem Create_selects_strategy (w : World) (wants_shadow : bool) (csd_style : CSDStyle) :
  (strategy (Create w wants_shadow csd_style) = UndecoratedStrategy
     <-> undecorated_case w wants_shadow) /\
  (strategy (Create w wants_shadow csd_style) = CustomFrame
     <-> ~ undecorated_case w wants_shadow /\ csd_style = kCustom) /\
  (strategy (Create w wants_shadow csd_style) = NativeFrame
     <-> ~ undecorated_case w wants_shadow /\ csd_style <> kCustom).
Proof.
  unfold Create, undecorated_case.
  destruct (IsX11 w), (IsTranslucent (window w)), wants_shadow, csd_style; cbn;
    repeat split; intros; try discriminate; try tauto; try congruence;
    intuition congruence.
Qed.

(** ** The undecorated strategy *)

(** C3. The undecorated layout's [RestoredFrameBorderInsets] is zero on all
    four sides, whatever the state of the window and of the tiled flag. *)
Theorem Undecorated_RestoredFrameBorderInsets_zero
    (w : World) (u : LinuxUndecoratedFrameLayout) :
  RestoredFrameBorderInsets w (Undecorated u) = Ok (gfx.TLBR 0 0 0 0).
Proof. reflexivity. Qed.

(** C10. The undecorated layout's [GetInputInsets] is a uniform 5-pixel
    inset, hence so is its [GetResizeBorderInsets] in every window state,
    although its restored-frame insets are zero; and
    [GetTranslucentTopAreaHeight] is 0 for every strategy. *)
Theorem Undecorated_resize_band_and_top_area
    (w : World) (u : LinuxUndecoratedFrameLayout) (l : LinuxFrameLayout) :
  GetInputInsets w (Undecorated u) = gfx.TLBR 5 5 5 5 /\
  GetResizeBorderInsets w (Undecorated u) = Ok (gfx.TLBR 5 5 5 5) /\
  RestoredFrameBorderInsets w (Undecorated u) = Ok (gfx.TLBR 0 0 0 0) /\
  GetTranslucentTopAreaHeight l = 0.
Proof.
  repeat split; try reflexivity. dispatch l; reflexivity.
Qed.

(** ** Shadows and the input region *)


(** ** Normalizing the border *)



(** ** Resize hit-testing *)

(** C9. For every strategy, [GetResizeBorderInsets] returns the restored
    frame border insets when some side of them is not zero, and
    [GetInputInsets] exactly when all four sides are zero. *)
Theorem GetResizeBorderInsets_fallback
    (w : World) (l : LinuxFrameLayout) (insets : gfx.Insets)
    (Hrestored : RestoredFrameBorderInsets w l = Ok insets) :
  GetResizeBorderInsets w l =
    Ok (if all_sides_zero insets then GetInputInsets w l else insets).
Proof.
  unfold GetResizeBorderInsets. rewrite Hrestored. cbn.
  rewrite (IsEmpty_all_sides_zero insets); [ reflexivity | ].
  eapply RestoredFrameBorderInsets_no_negative_side; eassumption.
Qed.

Lemma GetResizeBorderInsets_fallback_witness :
  RestoredFrameBorderInsets Samples.wayland
    (Create Samples.wayland true kNativeFrame) = Ok (gfx.TLBR 12 14 18 16) /\
  GetResizeBorderInsets Samples.wayland
    (Create Samples.wayland true kNativeFrame) = Ok (gfx.TLBR 12 14 18 16).
Proof.
  split; [ reflexivity | ].
  exact (GetResizeBorderInsets_fallback Samples.wayland
           (Create Samples.wayland true kNativeFrame)
           (gfx.TLBR 12 14 18 16) eq_refl).
Defined.

(** ** Corner rounding *)



(** ** Absent collaborators *)





(** ** Mutable state *)

Lemma set_tiled_immutable_part (l : LinuxFrameLayout) (b : bool) :
  immutable_part (set_tiled l b) = immutable_part l.
Proof. dispatch l; reflexivity. Qed.

Lemma tiled_set_tiled (l : LinuxFrameLayout) (b : bool) :
  tiled (set_tiled l b) = b.
Proof. dispatch l; reflexivity. Qed.

Lemma run_immutable_part (session : list (World * Call)) :
  forall l, immutable_part (run session l) = immutable_part l.
Proof.
  induction session as [| [w [q | b]] rest IH]; intros l; cbn [run invoke fst].
  - reflexivity.
  - apply IH.
  - rewrite IH. apply set_tiled_immutable_part.
Qed.

Lemma run_tiled (session : list (World * Call)) :
  forall l,
    tiled (run session l) =
      match last_set_tiled session with
      | Some b => b
      | None => tiled l
      end.
Proof.
  induction session as [| [w [q | b]] rest IH]; intros l;
    cbn [run invoke fst last_set_tiled].
  - reflexivity.
  - rewrite IH. destruct (last_set_tiled rest); reflexivity.
  - rewrite IH, tiled_set_tiled. destruct (last_set_tiled rest); reflexivity.
Qed.

(** C7. The tiled flag is the only mutable state of a layout:
    [set_tiled(b)] makes [tiled()] return [b] and leaves the strategy and
    the cached host capability as they were; every query hands the object
    back unchanged; and after any sequence of calls, in whatever toolkit
    states, the object differs from the initial one at most in its tiled
    flag, which holds the last value set. *)
Theorem tiled_is_the_only_mutable_state
    (l : LinuxFrameLayout) (b : bool) (w : World) (q : Query)
    (session : list (World * Call)) :
  tiled (set_tiled l b) = b /\
  immutable_part (set_tiled l b) = immutable_part l /\
  set_tiled l (tiled l) = l /\
  fst (invoke w l (AQuery q)) = l /\
  immutable_part (run session l) = immutable_part l /\
  tiled (run session l) =
    match last_set_tiled session with
    | Some last => last
    | None => tiled l
    end.
Proof.
  split; [ apply tiled_set_tiled | ].
  split; [ apply set_tiled_immutable_part | ].
  split; [ dispatch l; reflexivity | ].
  split; [ reflexivity | ].
  split; [ apply run_immutable_part | apply run_tiled ].
Qed.

(** ** What a query depends on *)

(** C8, as stated, fails: two custom-frame layouts with the same tiled flag,
    queried in the same toolkit state, disagree on [IsShowingShadow] because
    one of them was constructed before the window had a tree host. *)
Lemma construction_time_state_counterexample :
  strategy (Create Samples.wayland_before_host true kCustom)
    = strategy (Create Samples.wayland true kCustom) /\
  tiled (Create Samples.wayland_before_host true kCustom)
    = tiled (Create Samples.wayland true kCustom) /\
  IsShowingShadow Samples.wayland
    (Create Samples.wayland_before_host true kCustom) = false /\
  IsShowingShadow Samples.wayland
    (Create Samples.wayland true kCustom) = true.
Proof. repeat split. Qed.

(** C8, amended. Apart from [SupportsClientFrameShadow] itself, which asks
    the tree host on every call, a query is computed from the toolkit state
    at the time of the call, the tiled flag, and the host capability sampled
    once by the constructor: layouts of one strategy that agree on the tiled
    flag and on the cached capability give the same answer in toolkit states
    that differ at most in the tree host. *)
Theorem queries_use_cached_host_support
    (w : World) (host : option ElectronDesktopWindowTreeHostLinux)
    (l1 l2 : LinuxFrameLayout) (q : Query)
    (Hstrategy : strategy l1 = strategy l2)
    (Htiled : tiled l1 = tiled l2)
    (Hcached : cached_host_support l1 = cached_host_support l2)
    (Hquery : q <> QSupportsClientFrameShadow) :
  answer (with_tree_host w host) l1 q = answer w l2 q.
Proof.
  assert (l1 = l2) as ->.
  { apply layout_determined; [ unfold immutable_part; congruence | assumption ]. }
  destruct q; try congruence; destruct l2 as [b | b | u]; reflexivity.
Qed.

Lemma queries_use_cached_host_support_witness :
  answer (with_tree_host Samples.wayland None)
    (Create Samples.wayland true kCustom) QIsShowingShadow
  = answer Samples.wayland
      (set_tiled (Create Samples.wayland true kCustom) false) QIsShowingShadow.
Proof.
  apply queries_use_cached_host_support; [ reflexivity .. | discriminate ].
Defined.

(** * Further properties of the layouts *)

(** ** A layout at the time it is created *)

(** X1. A layout queried in the toolkit state it was created in shows a shadow
    exactly when the display server is not X11, the window is not
    translucent, a shadow was asked for, the tree host supports client-frame
    shadows and the window is neither maximized nor fullscreen; and it
    starts out not tiled. *)
Theorem Create_fresh_layout (w : World) (wants_shadow : bool) (csd_style : CSDStyle) :
  IsShowingShadow w (Create w wants_shadow csd_style) =
    negb (IsX11 w) && negb (IsTranslucent (window w)) && wants_shadow &&
    tree_host_supports_shadow w && restored w /\
  SupportsClientFrameShadow w (Create w wants_shadow csd_style) =
    negb (IsX11 w) && negb (IsTranslucent (window w)) && wants_shadow &&
    tree_host_supports_shadow w /\
  tiled (Create w wants_shadow csd_style) = false.
Proof.
  unfold Create, restored, tree_host_supports_shadow.
  destruct (IsX11 w), (IsTranslucent (window w)), wants_shadow, csd_style; cbn;
    unfold CSDBase.IsShowingShadow, CSDBase.ctor, CSDBase.SupportsClientFrameShadow;
    cbn; repeat split;
    destruct (GetHostForWidget (window w)) as [[[|]] |];
    destruct (IsMaximized (window w)), (IsFullscreen (window w)); reflexivity.
Qed.

(** ** The custom frame border *)

Lemma valid_SetByBounds (l t r b : Z) : valid_rect (gfx.SetByBounds l t r b).
Proof. unfold valid_rect; cbn; lia. Qed.

Lemma valid_shadow_bounds (shadow_value : gfx.ShadowValue) :
  valid_rect (shadow_bounds shadow_value).
Proof. apply valid_SetByBounds. Qed.

Lemma add_shadow_extents_Union (frame_extents : gfx.Rect) (shadow_value : gfx.ShadowValue) :
  CSDCustomFrame.add_shadow_extents frame_extents shadow_value =
    gfx.Rect_Union frame_extents (shadow_bounds shadow_value).
Proof. reflexivity. Qed.

Lemma covers_refl (r : gfx.Rect) : covers r r.
Proof. unfold covers; lia. Qed.

Lemma covers_trans (a b c : gfx.Rect) : covers a b -> covers b c -> covers a c.
Proof. unfold covers; lia. Qed.

Lemma Rect_IsEmpty_false (r : gfx.Rect) :
  valid_rect r -> gfx.Rect_IsEmpty r = false ->
  0 < gfx.width r /\ 0 < gfx.height r.
Proof.
  unfold valid_rect, gfx.Rect_IsEmpty. intros (Hw & Hh) He.
  apply orb_false_iff in He as (Hw0 & Hh0).
  apply Z.eqb_neq in Hw0. apply Z.eqb_neq in Hh0. lia.
Qed.

(** The union of two rectangles: valid, and covering each operand that is
    not empty; not empty as soon as one operand is not. *)
Lemma Rect_Union_spec (a b : gfx.Rect) :
  valid_rect a -> valid_rect b ->
  valid_rect (gfx.Rect_Union a b) /\
  (gfx.Rect_IsEmpty a = false ->
     covers (gfx.Rect_Union a b) a /\ gfx.Rect_IsEmpty (gfx.Rect_Union a b) = false) /\
  (gfx.Rect_IsEmpty b = false ->
     covers (gfx.Rect_Union a b) b /\ gfx.Rect_IsEmpty (gfx.Rect_Union a b) = false).
Proof.
  intros Ha Hb. unfold gfx.Rect_Union.
  destruct (gfx.Rect_IsEmpty a) eqn:Ea.
  - split; [ assumption | ]. split; [ discriminate | ].
    intros Eb. split; [ apply covers_refl | assumption ].
  - destruct (gfx.Rect_IsEmpty b) eqn:Eb.
    + split; [ assumption | ]. split; [ | discriminate ].
      intros _. split; [ apply covers_refl | assumption ].
    + destruct (Rect_IsEmpty_false a Ha Ea) as (Hwa & Hha).
      destruct (Rect_IsEmpty_false b Hb Eb) as (Hwb & Hhb).
      split; [ apply valid_SetByBounds | ].
      assert (Hne : gfx.Rect_IsEmpty
                      (gfx.SetByBounds (Z.min (gfx.x a) (gfx.x b))
                         (Z.min (gfx.y a) (gfx.y b))
                         (Z.max (gfx.Rect_right a) (gfx.Rect_right b))
                         (Z.max (gfx.Rect_bottom a) (gfx.Rect_bottom b))) = false).
      { unfold gfx.Rect_IsEmpty, gfx.SetByBounds, gfx.Rect_right, gfx.Rect_bottom.
        cbn. apply orb_false_iff. split; apply Z.eqb_neq; lia. }
      split; intros _; (split; [ | exact Hne ]);
        unfold covers, gfx.SetByBounds, gfx.Rect_right, gfx.Rect_bottom; cbn; lia.
Qed.

(** The loop over the shadow values keeps the extents valid, never loses
    what the extents covered before, and covers every shadow met. *)
Lemma fold_add_shadow_extents (shadow_values : gfx.ShadowValues) :
  forall frame_extents,
    valid_rect frame_extents ->
    let result :=
      fold_left CSDCustomFrame.add_shadow_extents shadow_values frame_extents in
    valid_rect result /\
    (gfx.Rect_IsEmpty frame_extents = false ->
       covers result frame_extents /\ gfx.Rect_IsEmpty result = false) /\
    (forall shadow_value,
       In shadow_value shadow_values ->
       gfx.Rect_IsEmpty (shadow_bounds shadow_value) = false ->
       covers result (shadow_bounds shadow_value) /\
       gfx.Rect_IsEmpty result = false).
Proof.
  induction shadow_values as [| sv rest IH]; intros frame_extents Hvalid; cbn [fold_left].
  - split; [ assumption | ]. split.
    + intros He. split; [ apply covers_refl | assumption ].
    + intros shadow_value [].
  - rewrite add_shadow_extents_Union.
    destruct (Rect_Union_spec frame_extents (shadow_bounds sv) Hvalid
                (valid_shadow_bounds sv)) as (Hu & Hleft & Hright).
    destruct (IH _ Hu) as (Hv & Hkeep & Hall).
    split; [ exact Hv | ]. split.
    + intros He. destruct (Hleft He) as (Hc & Hne).
      destruct (Hkeep Hne) as (Hc' & Hne').
      split; [ eapply covers_trans; eassumption | assumption ].
    + intros shadow_value [<- | Hin] Hne.
      * destruct (Hright Hne) as (Hc & Hne0).
        destruct (Hkeep Hne0) as (Hc' & Hne').
        split; [ eapply covers_trans; eassumption | assumption ].
      * apply Hall; assumption.
Qed.

Lemma Custom_RestoredFrameBorderInsets_showing
    (w : World) (b : LinuxCSDBaseLayout) (shadow_values : gfx.ShadowValues) :
  CSDBase.IsShowingShadow w b = true ->
  (if CSDBase.tiled b then Ok [] else GetFrameShadowValuesLinux w true)
    = Ok shadow_values ->
  exists frame_extents,
    covers frame_extents (gfx.MkRect (-10) (-10) 20 20) /\
    (forall shadow_value,
       In shadow_value shadow_values ->
       gfx.Rect_IsEmpty (shadow_bounds shadow_value) = false ->
       covers frame_extents (shadow_bounds shadow_value)) /\
    CSDCustomFrame.RestoredFrameBorderInsets w b =
      Ok (if IsRTL w
          then gfx.TLBR (- gfx.y frame_extents) (gfx.Rect_right frame_extents)
                        (gfx.Rect_bottom frame_extents) (- gfx.x frame_extents)
          else gfx.TLBR (- gfx.y frame_extents) (- gfx.x frame_extents)
                        (gfx.Rect_bottom frame_extents) (gfx.Rect_right frame_extents)).
Proof.
  intros Hshowing Hvalues.
  pose (shadows := fold_left CSDCustomFrame.add_shadow_extents shadow_values gfx.Rect_zero).
  pose (input_extents := gfx.MkRect (-10) (-10) 20 20).
  assert (Hzero : valid_rect gfx.Rect_zero) by (unfold valid_rect; cbn; lia).
  assert (Hinput : valid_rect input_extents) by (unfold valid_rect; cbn; lia).
  destruct (fold_add_shadow_extents shadow_values gfx.Rect_zero Hzero)
    as (Hvalid & _ & Hall). fold shadows in Hvalid, Hall.
  destruct (Rect_Union_spec shadows input_extents Hvalid Hinput)
    as (_ & Hleft & Hright).
  destruct (Hright eq_refl) as (Hcover & _).
  assert (Hshadows : forall sv, In sv shadow_values ->
            gfx.Rect_IsEmpty (shadow_bounds sv) = false ->
            covers (gfx.Rect_Union shadows input_extents) (shadow_bounds sv)).
  { intros sv Hin Hne. destruct (Hall sv Hin Hne) as (Hc & Hne').
    destruct (Hleft Hne') as (Hc' & _). eapply covers_trans; eassumption. }
  assert (Heq : CSDCustomFrame.RestoredFrameBorderInsets w b =
            Ok (CSDBase.NormalizeBorderInsets w
                  (gfx.TLBR (- gfx.y (gfx.Rect_Union shadows input_extents))
                            (- gfx.x (gfx.Rect_Union shadows input_extents))
                            (gfx.Rect_bottom (gfx.Rect_Union shadows input_extents))
                            (gfx.Rect_right (gfx.Rect_Union shadows input_extents)))
                  (gfx.Insets_all kResizeBorder))).
  { unfold CSDCustomFrame.RestoredFrameBorderInsets, CSDBase.GetInputInsets.
    cbv zeta. rewrite Hshowing, Hvalues. reflexivity. }
  clear Hleft Hright Hall Hvalid.
  set (F := gfx.Rect_Union shadows input_extents) in *. clearbody F.
  exists F. split; [ exact Hcover | ]. split; [ exact Hshadows | ].
  rewrite Heq. f_equal.
  destruct Hcover as (Hx & Hy & Hr & Hb).
  unfold gfx.Rect_right, gfx.Rect_bottom in Hr, Hb. cbn in Hx, Hy, Hr, Hb.
  unfold CSDBase.NormalizeBorderInsets, CSDBase.expand_if_visible,
    gfx.Rect_right, gfx.Rect_bottom, kResizeBorder. cbn.
  destruct (Z.gtb_spec (- gfx.y F) 0); [ | lia ].
  destruct (Z.gtb_spec (- gfx.x F) 0); [ | lia ].
  destruct (Z.gtb_spec (gfx.y F + gfx.height F) 0); [ | lia ].
  destruct (Z.gtb_spec (gfx.x F + gfx.width F) 0); [ | lia ].
  rewrite !Z.max_l by lia.
  destruct (IsRTL w); reflexivity.
Qed.

(** X2. While no shadow shows (host without client-frame shadows, or window
    maximized or fullscreen) the custom frame border is 1 pixel at the left,
    the bottom and the right and nothing at the top, in either text
    direction and whatever the tiled flag; the resize border is the same. *)
Theorem Custom_border_without_shadow (w : World) (b : LinuxCSDBaseLayout)
    (Hhidden : IsShowingShadow w (CSDCustom b) = false) :
  RestoredFrameBorderInsets w (CSDCustom b) = Ok (gfx.TLBR 0 1 1 1) /\
  GetResizeBorderInsets w (CSDCustom b) = Ok (gfx.TLBR 0 1 1 1).
Proof.
  cbn in Hhidden.
  assert (H : RestoredFrameBorderInsets w (CSDCustom b) = Ok (gfx.TLBR 0 1 1 1)).
  { cbn. unfold CSDCustomFrame.RestoredFrameBorderInsets, CSDBase.GetInputInsets.
    cbv zeta. rewrite Hhidden. unfold CSDBase.NormalizeBorderInsets.
    destruct (IsRTL w); reflexivity. }
  split; [ exact H | ]. unfold GetResizeBorderInsets. rewrite H. reflexivity.
Qed.

Lemma Custom_border_without_shadow_witness :
  IsShowingShadow (maximized Samples.wayland)
    (Create Samples.wayland true kCustom) = false /\
  GetResizeBorderInsets (maximized Samples.wayland)
    (Create Samples.wayland true kCustom) = Ok (gfx.TLBR 0 1 1 1).
Proof.
  split; [ reflexivity | ].
  destruct (Custom_border_without_shadow (maximized Samples.wayland)
              (CSDBase.ctor Samples.wayland) eq_refl) as (_ & Hresize).
  exact Hresize.
Defined.

(** X3. A tiled custom-frame window that shows its shadow has a border of
    exactly 10 pixels on every side: no shadow value is consulted, and the
    layout provider is not needed. *)
Theorem Custom_border_tiled (w : World) (b : LinuxCSDBaseLayout)
    (Hshowing : IsShowingShadow w (CSDCustom b) = true)
    (Htiled : tiled (CSDCustom b) = true) :
  RestoredFrameBorderInsets w (CSDCustom b) = Ok (gfx.TLBR 10 10 10 10) /\
  GetResizeBorderInsets w (CSDCustom b) = Ok (gfx.TLBR 10 10 10 10).
Proof.
  cbn in Hshowing, Htiled.
  assert (H : RestoredFrameBorderInsets w (CSDCustom b) = Ok (gfx.TLBR 10 10 10 10)).
  { cbn. unfold CSDCustomFrame.RestoredFrameBorderInsets, CSDBase.GetInputInsets.
    cbv zeta. rewrite Hshowing, Htiled. unfold CSDBase.NormalizeBorderInsets.
    destruct (IsRTL w); reflexivity. }
  split; [ exact H | ]. unfold GetResizeBorderInsets. rewrite H. reflexivity.
Qed.

Lemma Custom_border_tiled_witness :
  RestoredFrameBorderInsets Samples.wayland_rtl
    (set_tiled (Create Samples.wayland true kCustom) true)
  = Ok (gfx.TLBR 10 10 10 10).
Proof.
  destruct (Custom_border_tiled Samples.wayland_rtl
              (CSDBase.set_tiled (CSDBase.ctor Samples.wayland) true)
              eq_refl eq_refl) as (Hrestored & _).
  exact Hrestored.
Defined.

(** X4. A custom-frame border computed while the shadow shows is at least as
    large as the input region: 10 pixels or more on every side; and the
    resize border is that same border. *)
Theorem Custom_border_covers_input_region
    (w : World) (b : LinuxCSDBaseLayout) (insets : gfx.Insets)
    (Hshowing : IsShowingShadow w (CSDCustom b) = true)
    (Hrestored : RestoredFrameBorderInsets w (CSDCustom b) = Ok insets) :
  10 <= gfx.top insets /\ 10 <= gfx.left insets /\
  10 <= gfx.bottom insets /\ 10 <= gfx.right insets /\
  GetResizeBorderInsets w (CSDCustom b) = Ok insets.
Proof.
  cbn in Hshowing.
  assert (Hvalues : exists shadow_values,
             (if CSDBase.tiled b then Ok [] else GetFrameShadowValuesLinux w true)
             = Ok shadow_values).
  { cbn in Hrestored. unfold CSDCustomFrame.RestoredFrameBorderInsets in Hrestored.
    cbv zeta in Hrestored. rewrite Hshowing in Hrestored.
    apply bind_Ok_inv in Hrestored as (shadow_values & Hvalues & _). eauto. }
  destruct Hvalues as (shadow_values & Hvalues).
  destruct (Custom_RestoredFrameBorderInsets_showing w b shadow_values Hshowing Hvalues)
    as (F & (Hx & Hy & Hr & Hb) & _ & Heq).
  cbn in Hrestored. rewrite Heq in Hrestored. injection Hrestored as <-.
  unfold gfx.Rect_right, gfx.Rect_bottom in *. cbn in Hx, Hy, Hr, Hb.
  assert (Hsides :
    10 <= gfx.top (if IsRTL w
          then gfx.TLBR (- gfx.y F) (gfx.x F + gfx.width F)
                        (gfx.y F + gfx.height F) (- gfx.x F)
          else gfx.TLBR (- gfx.y F) (- gfx.x F)
                        (gfx.y F + gfx.height F) (gfx.x F + gfx.width F)) /\
    10 <= gfx.left (if IsRTL w
          then gfx.TLBR (- gfx.y F) (gfx.x F + gfx.width F)
                        (gfx.y F + gfx.height F) (- gfx.x F)
          else gfx.TLBR (- gfx.y F) (- gfx.x F)
                        (gfx.y F + gfx.height F) (gfx.x F + gfx.width F)) /\
    10 <= gfx.bottom (if IsRTL w
          then gfx.TLBR (- gfx.y F) (gfx.x F + gfx.width F)
                        (gfx.y F + gfx.height F) (- gfx.x F)
          else gfx.TLBR (- gfx.y F) (- gfx.x F)
                        (gfx.y F + gfx.height F) (gfx.x F + gfx.width F)) /\
    10 <= gfx.right (if IsRTL w
          then gfx.TLBR (- gfx.y F) (gfx.x F + gfx.width F)
                        (gfx.y F + gfx.height F) (- gfx.x F)
          else gfx.TLBR (- gfx.y F) (- gfx.x F)
                        (gfx.y F + gfx.height F) (gfx.x F + gfx.width F))).
  { destruct (IsRTL w); cbn; lia. }
  destruct Hsides as (Ht & Hl & Hbt & Hrt).
  do 4 (split; [ assumption | ]).
  unfold GetResizeBorderInsets. cbn [RestoredFrameBorderInsets]. rewrite Heq.
  cbv beta iota delta [bind].
  unfold gfx.Rect_right, gfx.Rect_bottom.
  replace (gfx.IsEmpty _) with false; [ reflexivity | ].
  symmetry. unfold gfx.IsEmpty, gfx.Insets_width, gfx.Insets_height.
  apply andb_false_iff. left. apply Z.eqb_neq. lia.
Qed.

Lemma Custom_border_covers_input_region_witness :
  IsShowingShadow Samples.wayland (Create Samples.wayland true kCustom) = true /\
  RestoredFrameBorderInsets Samples.wayland (Create Samples.wayland true kCustom)
    = Ok (gfx.TLBR 10 16 32 16) /\
  GetResizeBorderInsets Samples.wayland (Create Samples.wayland true kCustom)
    = Ok (gfx.TLBR 10 16 32 16).
Proof.
  split; [ reflexivity | ]. split; [ reflexivity | ].
  destruct (Custom_border_covers_input_region Samples.wayland
              (CSDBase.ctor Samples.wayland) (gfx.TLBR 10 16 32 16) eq_refl eq_refl)
    as (_ & _ & _ & _ & Hresize).
  exact Hresize.
Defined.

(** X5. A custom-frame border computed while the shadow shows on a window that
    is not tiled is at least as large as every shadow of the active frame:
    it reaches as far up, down and sideways as the rectangle the shadow
    covers, left and right being exchanged under a right-to-left locale. *)
Theorem Custom_border_covers_shadows
    (w : World) (b : LinuxCSDBaseLayout) (provider : LayoutProvider)
    (shadow_value : gfx.ShadowValue)
    (Hshowing : IsShowingShadow w (CSDCustom b) = true)
    (Htiled : tiled (CSDCustom b) = false)
    (Hprovider : LayoutProvider_Get w = Some provider)
    (Hin : In shadow_value
             (MakeMdShadowValues w (GetShadowElevationMetric provider kMaximum)))
    (Hvisible : gfx.Rect_IsEmpty (shadow_bounds shadow_value) = false) :
  exists insets,
    RestoredFrameBorderInsets w (CSDCustom b) = Ok insets /\
    - gfx.y (shadow_bounds shadow_value) <= gfx.top insets /\
    gfx.Rect_bottom (shadow_bounds shadow_value) <= gfx.bottom insets /\
    - gfx.x (shadow_bounds shadow_value)
      <= (if IsRTL w then gfx.right insets else gfx.left insets) /\
    gfx.Rect_right (shadow_bounds shadow_value)
      <= (if IsRTL w then gfx.left insets else gfx.right insets).
Proof.
  cbn in Hshowing, Htiled.
  assert (Hvalues :
            (if CSDBase.tiled b then Ok [] else GetFrameShadowValuesLinux w true)
            = Ok (MakeMdShadowValues w (GetShadowElevationMetric provider kMaximum))).
  { rewrite Htiled. unfold GetFrameShadowValuesLinux. rewrite Hprovider. reflexivity. }
  destruct (Custom_RestoredFrameBorderInsets_showing w b _ Hshowing Hvalues)
    as (F & _ & Hall & Heq).
  destruct (Hall shadow_value Hin Hvisible) as (Hx & Hy & Hr & Hb).
  eexists. split; [ exact Heq | ].
  destruct (IsRTL w); cbn [gfx.top gfx.left gfx.bottom gfx.right];
    repeat split; lia.
Qed.

Lemma Custom_border_covers_shadows_witness :
  shadow_bounds (gfx.MkShadow 0 16 64) = gfx.MkRect (-16) 0 32 32 /\
  exists insets,
    RestoredFrameBorderInsets Samples.wayland
      (Create Samples.wayland true kCustom) = Ok insets /\
    0 <= gfx.top insets /\ 32 <= gfx.bottom insets /\
    16 <= gfx.left insets /\ 16 <= gfx.right insets.
Proof.
  split; [ reflexivity | ].
  destruct (Custom_border_covers_shadows Samples.wayland
              (CSDBase.ctor Samples.wayland)
              {| GetShadowElevationMetric :=
                   fun e => match e with kMaximum => 16 | kMedium => 8 end |}
              (gfx.MkShadow 0 16 64)
              eq_refl eq_refl eq_refl (or_introl eq_refl) eq_refl)
    as (insets & Hrestored & Ht & Hb & Hl & Hr).
  exists insets. split; [ exact Hrestored | ].
  repeat split; assumption.
Defined.

(** ** The native frame border *)




(** ** Borders, bounds and text direction *)

(** X7. For every strategy the resize border has no negative side, and it is
    not empty whenever the layout shows a shadow or is undecorated. *)
Theorem GetResizeBorderInsets_band
    (w : World) (l : LinuxFrameLayout) (insets : gfx.Insets)
    (Hresize : GetResizeBorderInsets w l = Ok insets) :
  no_negative_side insets /\
  (IsShowingShadow w l = true \/ strategy l = UndecoratedStrategy ->
   all_sides_zero insets = false).
Proof.
  unfold GetResizeBorderInsets in Hresize.
  apply bind_Ok_inv in Hresize as (restored_insets & Hrestored & Hresize).
  pose proof (RestoredFrameBorderInsets_no_negative_side _ _ _ Hrestored) as Hnn.
  rewrite (IsEmpty_all_sides_zero _ Hnn) in Hresize.
  destruct (all_sides_zero restored_insets) eqn:Hzero; injection Hresize as <-.
  - destruct l as [b | b | u]; cbn;
      unfold CSDBase.GetInputInsets, UndecoratedFrame.GetInputInsets,
        kResizeBorder, kResizeInsideBoundsSize.
    + destruct (CSDBase.IsShowingShadow w b);
        (split; [ unfold no_negative_side; cbn; lia | ]);
        intros [H | H]; try discriminate; reflexivity.
    + destruct (CSDBase.IsShowingShadow w b);
        (split; [ unfold no_negative_side; cbn; lia | ]);
        intros [H | H]; try discriminate; reflexivity.
    + split; [ unfold no_negative_side; cbn; lia | reflexivity ].
  - split; [ assumption | intros _; exact Hzero ].
Qed.

Lemma GetResizeBorderInsets_band_witness :
  GetResizeBorderInsets Samples.wayland
    (Create Samples.wayland false kNativeFrame) = Ok (gfx.TLBR 5 5 5 5) /\
  all_sides_zero (gfx.TLBR 5 5 5 5) = false.
Proof.
  split; [ reflexivity | ].
  destruct (GetResizeBorderInsets_band Samples.wayland
              (Create Samples.wayland false kNativeFrame)
              (gfx.TLBR 5 5 5 5) eq_refl) as (_ & Hband).
  apply Hband. right. reflexivity.
Defined.

(** X8. The logical window bounds lie within the widget bounds as to origin and
    size: the origin never moves up or to the left, and neither dimension
    grows or becomes negative.  For the undecorated layout the two
    rectangles are the same. *)
Theorem GetWindowBounds_within_widget
    (w : World) (l : LinuxFrameLayout) (wd : Widget) (bounds : gfx.Rect)
    (Hwidget : widget (window w) = Some wd)
    (Hvalid : valid_rect (GetWindowBoundsInScreen wd))
    (Hbounds : GetWindowBounds w l = Ok bounds) :
  gfx.x (GetWindowBoundsInScreen wd) <= gfx.x bounds /\
  gfx.y (GetWindowBoundsInScreen wd) <= gfx.y bounds /\
  0 <= gfx.width bounds <= gfx.width (GetWindowBoundsInScreen wd) /\
  0 <= gfx.height bounds <= gfx.height (GetWindowBoundsInScreen wd) /\
  (strategy l = UndecoratedStrategy -> bounds = GetWindowBoundsInScreen wd).
Proof.
  destruct Hvalid as (Hw & Hh).
  assert (Hcsd : forall insets,
             no_negative_side insets ->
             bounds = gfx.Rect_Inset (GetWindowBoundsInScreen wd) insets ->
             gfx.x (GetWindowBoundsInScreen wd) <= gfx.x bounds /\
             gfx.y (GetWindowBoundsInScreen wd) <= gfx.y bounds /\
             0 <= gfx.width bounds <= gfx.width (GetWindowBoundsInScreen wd) /\
             0 <= gfx.height bounds <= gfx.height (GetWindowBoundsInScreen wd)).
  { intros insets (Ht & Hl & Hb & Hr) ->.
    unfold gfx.Rect_Inset, gfx.Insets_width, gfx.Insets_height. cbn. lia. }
  destruct l as [b | b | u]; unfold GetWindowBounds in Hbounds.
  - rewrite Hwidget in Hbounds. cbn [deref bind] in Hbounds.
    apply bind_Ok_inv in Hbounds as (insets & Hinsets & Hbounds).
    injection Hbounds as <-.
    pose proof (RestoredFrameBorderInsets_no_negative_side _ _ _ Hinsets) as Hnn.
    destruct (Hcsd insets Hnn eq_refl) as (? & ? & ? & ?).
    repeat split; try lia. discriminate.
  - rewrite Hwidget in Hbounds. cbn [deref bind] in Hbounds.
    apply bind_Ok_inv in Hbounds as (insets & Hinsets & Hbounds).
    injection Hbounds as <-.
    pose proof (RestoredFrameBorderInsets_no_negative_side _ _ _ Hinsets) as Hnn.
    destruct (Hcsd insets Hnn eq_refl) as (? & ? & ? & ?).
    repeat split; try lia. discriminate.
  - unfold UndecoratedFrame.GetWindowBounds in Hbounds.
    rewrite Hwidget in Hbounds. injection Hbounds as <-.
    repeat split; try lia.
Qed.

Lemma GetWindowBounds_within_widget_witness :
  GetWindowBounds Samples.wayland (Create Samples.wayland true kCustom)
    = Ok (gfx.MkRect 116 60 768 558) /\
  100 <= 116 /\ 50 <= 60 /\ 0 <= 768 <= 800 /\ 0 <= 558 <= 600.
Proof.
  split; [ reflexivity | ].
  assert (Hvalid : valid_rect (gfx.MkRect 100 50 800 600))
    by (unfold valid_rect; cbn; lia).
  destruct (GetWindowBounds_within_widget Samples.wayland
              (Create Samples.wayland true kCustom)
              {| GetWindowBoundsInScreen := gfx.MkRect 100 50 800 600 |}
              (gfx.MkRect 116 60 768 558) eq_refl Hvalid eq_refl)
    as (Hx & Hy & Hw & Hh & _).
  repeat split; first [ apply Hx | apply Hy | apply Hw | apply Hh ].
Defined.

Lemma NormalizeBorderInsets_mirrored (w : World) (frame_insets input_insets : gfx.Insets) :
  CSDBase.NormalizeBorderInsets (with_text_direction w true) frame_insets input_insets
  = mirrored (CSDBase.NormalizeBorderInsets (with_text_direction w false)
                frame_insets input_insets).
Proof. reflexivity. Qed.

(** X9. Text direction affects the layouts in one way only: under a
    right-to-left locale the restored frame border is the left-to-right one
    with left and right exchanged.  The input insets and the shadow are the
    same in both directions, and the logical window bounds keep their
    vertical position and their size. *)
Theorem text_direction_mirrors_border (w : World) (l : LinuxFrameLayout) :
  RestoredFrameBorderInsets (with_text_direction w true) l
    = fmap mirrored (RestoredFrameBorderInsets (with_text_direction w false) l) /\
  GetInputInsets (with_text_direction w true) l
    = GetInputInsets (with_text_direction w false) l /\
  IsShowingShadow (with_text_direction w true) l
    = IsShowingShadow (with_text_direction w false) l /\
  fmap (fun r => (gfx.y r, gfx.width r, gfx.height r))
       (GetWindowBounds (with_text_direction w true) l)
    = fmap (fun r => (gfx.y r, gfx.width r, gfx.height r))
           (GetWindowBounds (with_text_direction w false) l).
Proof.
  assert (Hrestored :
    RestoredFrameBorderInsets (with_text_direction w true) l
    = fmap mirrored (RestoredFrameBorderInsets (with_text_direction w false) l)).
  { destruct l as [b | b | u].
    - cbn. unfold CSDNativeFrame.RestoredFrameBorderInsets,
        CSDNativeFrame.GetFrameProvider. cbn.
      destruct (LinuxUiTheme_GetForProfile w); reflexivity.
    - cbn. unfold CSDCustomFrame.RestoredFrameBorderInsets,
        CSDBase.GetInputInsets, CSDBase.IsShowingShadow, GetFrameShadowValuesLinux.
      cbn [window with_text_direction LayoutProvider_Get MakeMdShadowValues].
      destruct (host_supports_client_frame_shadow_ b && negb (IsMaximized (window w))
                && negb (IsFullscreen (window w))).
      + destruct (CSDBase.tiled b); [ reflexivity | ].
        destruct (LayoutProvider_Get w); reflexivity.
      + reflexivity.
    - reflexivity. }
  split; [ exact Hrestored | ].
  split; [ destruct l; reflexivity | ].
  split; [ destruct l; reflexivity | ].
  destruct l as [b | b | u]; unfold GetWindowBounds, UndecoratedFrame.GetWindowBounds;
    change (widget (window (with_text_direction w true))) with (widget (window w));
    change (widget (window (with_text_direction w false))) with (widget (window w));
    (destruct (widget (window w)) as [wd |]; [ | reflexivity ]);
    cbn [deref bind]; try reflexivity;
    rewrite Hrestored;
    (destruct (RestoredFrameBorderInsets (with_text_direction w false) _)
       as [insets |]; [ | reflexivity ]);
    unfold fmap, mirrored, gfx.Rect_Inset, gfx.Insets_width, gfx.Insets_height;
    cbn; f_equal;
    (apply pair_equal_spec; split; [ apply pair_equal_spec; split | ]); lia.
Qed.

(** ** Painting *)


(** X10. Painting on a view that has a color provider only adds to the canvas:
    what was drawn before stays, the image scale is kept, every save of the
    canvas state is undone by a restore within the added operations, and
    exactly one rounded rectangle is drawn.  The frame background is
    painted once when there is one, and its borders are filled only when
    no shadow shows. *)
Theorem Paint_appends_balanced
    (w : World) (canvas : Canvas) (view : View) (colors : ColorProvider)
    (frame_background : option FrameBackground) (clip : SkRRect)
    (showing_shadow is_active : bool) (border : gfx.Insets)
    (shadow_values : gfx.ShadowValues) (tiled : bool)
    (Hcolors : GetColorProvider view = Some colors) :
  exists ops,
    PaintRestoredFrameBorderLinux w canvas view frame_background clip
      showing_shadow is_active border shadow_values tiled
    = Ok {| image_scale := image_scale canvas; drawn := drawn canvas ++ ops |} /\
    save_depth ops 0 = Some 0%nat /\
    length (filter is_drawRRect ops) = 1%nat /\
    length (filter is_PaintMaximized ops) =
      (match frame_background with Some _ => 1%nat | None => 0%nat end) /\
    length (filter is_FillFrameBorders ops) =
      (match frame_background with
       | Some _ => if showing_shadow then 0%nat else 1%nat
       | None => 0%nat
       end).
Proof.
  unfold PaintRestoredFrameBorderLinux. rewrite Hcolors.
  destruct frame_background as [fb |], showing_shadow;
    cbv beta iota zeta delta [bind deref emit image_scale drawn negb];
    rewrite <- !app_assoc; cbn [app];
    (eexists; split; [ reflexivity | ]);
    repeat split.
Qed.

Lemma Paint_appends_balanced_witness :
  exists ops,
    PaintRestoredFrameBorderLinux Samples.wayland Samples.blank_canvas
      Samples.attached_view (Some TheFrameBackground) Samples.clip_rect
      false true (gfx.TLBR 0 1 1 1) [] false
    = Ok {| image_scale := 2; drawn := [] ++ ops |} /\
    save_depth ops 0 = Some 0%nat.
Proof.
  destruct (Paint_appends_balanced Samples.wayland Samples.blank_canvas
              Samples.attached_view _ (Some TheFrameBackground) Samples.clip_rect
              false true (gfx.TLBR 0 1 1 1) [] false eq_refl)
    as (ops & Hpaint & Hdepth & _).
  exists ops. split; assumption.
Defined.



(** X12. The inner clip and the drawn rectangle are both the given clip, grown
    or shrunk so that the ring between them is one pixel of the canvas wide
    (1 / image scale), and one unit wide on a tiled window.  The drawn
    rectangle is never smaller than the clip and the inner clip never
    larger: on a tiled window or while a shadow shows the ring lies outside
    the clip, otherwise inside it. *)
Theorem Paint_border_ring
    (w : World) (canvas : Canvas) (view : View) (colors : ColorProvider)
    (frame_background : option FrameBackground) (clip : SkRRect)
    (showing_shadow is_active : bool) (border : gfx.Insets)
    (shadow_values : gfx.ShadowValues) (tiled : bool)
    (Hcolors : GetColorProvider view = Some colors)
    (Hscale : (0 < image_scale canvas)%Q) :
  exists background inner outer flags,
    PaintRestoredFrameBorderLinux w canvas view frame_background clip
      showing_shadow is_active border shadow_values tiled
    = Ok {| image_scale := image_scale canvas;
            drawn := drawn canvas ++ background ++
                     [canvas_Save; clipRRect inner kDifference true;
                      drawRRect outer flags; canvas_Restore] |} /\
    base inner = clip /\ base outer = clip /\
    (grown_x outer - grown_x inner ==
       (if tiled then 1 else 1 / image_scale canvas))%Q /\
    (grown_y outer - grown_y inner ==
       (if tiled then 1 else 1 / image_scale canvas))%Q /\
    (if tiled || showing_shadow
     then (grown_x inner == 0)%Q /\ (grown_y inner == 0)%Q
     else (grown_x outer == 0)%Q /\ (grown_y outer == 0)%Q).
Proof.
  unfold PaintRestoredFrameBorderLinux. rewrite Hcolors.
  destruct frame_background as [fb |], showing_shadow;
    cbv beta iota zeta delta [bind deref emit image_scale drawn negb];
    rewrite <- !app_assoc; cbn [app];
    [ eexists (_ :: _ :: _ :: _ :: nil)
    | eexists (_ :: _ :: _ :: _ :: _ :: nil)
    | eexists nil
    | eexists nil ];
    do 3 eexists; (split; [ reflexivity | ]);
    destruct tiled;
    cbv beta iota delta [inset outset unadjusted base grown_x grown_y orb];
    repeat split; ring.
Qed.

Lemma Paint_border_ring_witness :
  exists background inner outer flags,
    PaintRestoredFrameBorderLinux Samples.wayland Samples.blank_canvas
      Samples.attached_view None Samples.clip_rect
      false true (gfx.TLBR 0 1 1 1) [] false
    = Ok {| image_scale := 2;
            drawn := [] ++ background ++
                     [canvas_Save; clipRRect inner kDifference true;
                      drawRRect outer flags; canvas_Restore] |} /\
    (grown_x outer - grown_x inner == 1 / 2)%Q.
Proof.
  destruct (Paint_border_ring Samples.wayland Samples.blank_canvas
              Samples.attached_view _ None Samples.clip_rect
              false true (gfx.TLBR 0 1 1 1) [] false eq_refl eq_refl)
    as (background & inner & outer & flags & Hpaint & _ & _ & Hx & _).
  exists background, inner, outer, flags. split; assumption.
Defined.
